(** * jenkins_script: executing a groovy script in a Jenkins instance

    A shallow embedding of
    [lib/ansible/modules/web_infrastructure/jenkins_script.py] together
    with the pieces of the Python 2 standard library its [main] calls
    ([string.Template.substitute], [urllib.urlencode], [str], [in]).

    Python byte strings are Rocq [string]s (one [ascii] per byte), the
    [args] dict is a [gmap string value], and [main] is written in a
    small state-and-exit monad whose state holds the module object and the
    trace of calls made to the collaborators. *)

From Stdlib Require Import Ascii String ZArith Lia List.
From Equations Require Import Equations.
From stdpp Require Import strings gmap pretty.

#[local] Arguments String.append !_ _ / : simpl nomatch.

(** ** Python built-ins *)

Module Py.

(** The values a YAML/JSON supplied dict entry can hold, as far as the
    renderer can print them. *)
Inductive value :=
| VStr (s : string)
| VInt (z : Z)
| VBool (b : bool)
| VNone.

(** [str(i)] for an int. *)
Definition str_int (z : Z) : string := pretty z.

(** ['%s' % (val,)], which is [str(val)] on these values. *)
Definition str (v : value) : string :=
  match v with
  | VStr s => s
  | VInt z => str_int z
  | VBool true => "True"
  | VBool false => "False"
  | VNone => "None"
  end.

(** [hay.startswith(needle)]. *)
Fixpoint startswith (needle hay : string) : bool :=
  match needle, hay with
  | EmptyString, _ => true
  | String a n', String b h' => if Ascii.eqb a b then startswith n' h' else false
  | String _ _, EmptyString => false
  end.

(** [needle in hay] on strings. *)
Fixpoint contains (needle hay : string) : bool :=
  startswith needle hay
  || match hay with
     | EmptyString => false
     | String _ h' => contains needle h'
     end.

(** The exceptions [string.Template.substitute] raises. The text of the
    [ValueError] (line and column of the bad delimiter) is left out. *)
Inductive exn :=
| KeyError (key : string)
| ValueError.

(** A computation that returns or raises. *)
Inductive res (A : Type) :=
| OK (a : A)
| Raise (e : exn).
Arguments OK {A} a.
Arguments Raise {A} e.

Definition res_bind {A B} (r : res A) (k : A -> res B) : res B :=
  match r with
  | OK a => k a
  | Raise e => Raise e
  end.

End Py.

(** ** string.Template *)

Module Template.
Import Py.

Definition delimiter : ascii := "$"%char.

Definition in_range (lo hi c : ascii) : bool :=
  (nat_of_ascii lo <=? nat_of_ascii c)%nat && (nat_of_ascii c <=? nat_of_ascii hi)%nat.

(** [idpattern] is an [[_a-z]] followed by any number of [[_a-z0-9]],
    compiled with [re.IGNORECASE]. The first class ... *)
Definition id_start (c : ascii) : bool :=
  Ascii.eqb c "_" || in_range "a" "z" c || in_range "A" "Z" c.

(** ... and the second. *)
Definition id_char (c : ascii) : bool :=
  id_start c || in_range "0" "9" c.

(** The greedy repetition of [[_a-z0-9]]: the longest run of identifier
    characters and the text after it. *)
Fixpoint span_id_chars (s : string) : string * string :=
  match s with
  | String c s' =>
      if id_char c
      then let '(n, rest) := span_id_chars s' in (String c n, rest)
      else (EmptyString, s)
  | EmptyString => (EmptyString, EmptyString)
  end.

(** The group of [pattern] that took part in a match. *)
Inductive match_object :=
| Escaped
| Named (name : string)
| Braced (name : string)
| Invalid.

(** [pattern], tried right after a delimiter. Its alternatives, in
    order: [escaped], a second delimiter; [named], an identifier;
    [braced], an identifier between [{] and [}]; [invalid], the empty
    string. The result is the group that matched and the text after the
    end of the match; the [invalid] group consumes nothing. *)
Definition match_after_delimiter (r : string) : match_object * string :=
  match r with
  | String c r' =>
      if Ascii.eqb c delimiter then (Escaped, r')
      else if id_start c then
        let '(n, rest) := span_id_chars r' in (Named (String c n), rest)
      else if Ascii.eqb c "{" then
        match r' with
        | String c1 r1 =>
            if id_start c1 then
              let '(n, rest) := span_id_chars r1 in
              match rest with
              | String c2 rest' =>
                  if Ascii.eqb c2 "}" then (Braced (String c1 n), rest')
                  else (Invalid, r)
              | EmptyString => (Invalid, r)
              end
            else (Invalid, r)
        | EmptyString => (Invalid, r)
        end
      else (Invalid, r)
  | EmptyString => (Invalid, EmptyString)
  end.

(** [convert(mo)] of [substitute]. *)
Definition convert (mapping : gmap string value) (mo : match_object) : res string :=
  match mo with
  | Named named | Braced named =>
      match mapping !! named with
      | Some val => OK (str val)
      | None => Raise (KeyError named)
      end
  | Escaped => OK (String delimiter EmptyString)
  | Invalid => Raise ValueError
  end.

(** A match ends inside the template, which is why the scan below
    terminates. *)
Lemma span_id_chars_length s :
  String.length (snd (span_id_chars s)) <= String.length s.
Proof.
  induction s as [|c s IH]; simpl; [lia|].
  destruct (id_char c); simpl; [|lia].
  destruct (span_id_chars s); simpl in *; lia.
Qed.

Lemma match_after_delimiter_length r :
  String.length (snd (match_after_delimiter r)) <= String.length r.
Proof.
  destruct r as [|c r']; simpl; [lia|].
  destruct (Ascii.eqb c delimiter); simpl; [lia|].
  destruct (id_start c).
  { pose proof (span_id_chars_length r').
    destruct (span_id_chars r'); simpl in *; lia. }
  destruct (Ascii.eqb c "{"); simpl; [|lia].
  destruct r' as [|c1 r1]; simpl; [lia|].
  destruct (id_start c1); simpl; [|lia].
  pose proof (span_id_chars_length r1).
  destruct (span_id_chars r1) as [n rest]; simpl in *.
  destruct rest as [|c2 rest']; simpl in *; [lia|].
  destruct (Ascii.eqb c2 "}"); simpl; lia.
Qed.

Definition inspect {A} (a : A) : {b : A | a = b} := exist _ a eq_refl.

(** [pattern.sub(convert, template)]: the template is scanned once from
    left to right; text outside matches is copied, each match is replaced
    by what [convert] returns, and scanning resumes after the match. The
    first [convert] that raises ends the scan. *)
Equations? sub (mapping : gmap string value) (template : string) : res string
  by wf (String.length template) lt :=
  sub mapping EmptyString := OK EmptyString;
  sub mapping (String c r) with Ascii.eqb c delimiter => {
    | false := res_bind (sub mapping r) (fun out => OK (String c out));
    | true with inspect (match_after_delimiter r) => {
        | exist _ (mo, rest) _ :=
            res_bind (convert mapping mo) (fun v =>
            res_bind (sub mapping rest) (fun out => OK (v +:+ out))) } }.
Proof.
  - pose proof (match_after_delimiter_length r) as Hlen.
    rewrite e in Hlen. simpl in *. lia.
  - simpl. lia.
Qed.

(** [Template(template).substitute(mapping)]. *)
Definition substitute (template : string) (mapping : gmap string value) : res string :=
  sub mapping template.

(** [[mo.group('named') or mo.group('braced') for mo in
    pattern.finditer(template)]], without the [None]s: the names of the
    placeholders of a template, in order. *)
Equations? placeholders (template : string) : list string
  by wf (String.length template) lt :=
  placeholders EmptyString := nil;
  placeholders (String c r) with Ascii.eqb c delimiter => {
    | false := placeholders r;
    | true with inspect (match_after_delimiter r) => {
        | exist _ (Named n, rest) _ := n :: placeholders rest;
        | exist _ (Braced n, rest) _ := n :: placeholders rest;
        | exist _ (_, rest) _ := placeholders rest } }.
Proof.
  all: try match goal with
       | E : match_after_delimiter ?r = _ |- _ =>
           pose proof (match_after_delimiter_length r) as Hlen;
           rewrite E in Hlen
       end.
  all: simpl in *; lia.
Qed.

End Template.



(** ** urllib (Python 2) *)

Module Urllib.

Definition always_safe : string :=
  "ABCDEFGHIJKLMNOPQRSTUVWXYZabcdefghijklmnopqrstuvwxyz0123456789_.-".

(** [c in s] for a one-character [c]. *)
Fixpoint char_in (c : ascii) (s : string) : bool :=
  match s with
  | EmptyString => false
  | String d s' => Ascii.eqb c d || char_in c s'
  end.

Definition hex_digit (n : nat) : ascii :=
  match n with
  | 0 => "0" | 1 => "1" | 2 => "2" | 3 => "3" | 4 => "4" | 5 => "5"
  | 6 => "6" | 7 => "7" | 8 => "8" | 9 => "9" | 10 => "A" | 11 => "B"
  | 12 => "C" | 13 => "D" | 14 => "E" | _ => "F"
  end%char.

(** The entry of [safe_map] for [c]: the character itself when it is
    safe, ['%{:02X}'.format(ord(c))] otherwise. *)
Definition quoter (safe : string) (c : ascii) : string :=
  if char_in c always_safe || char_in c safe
  then String c EmptyString
  else
    let i := nat_of_ascii c in
    String "%" (String (hex_digit (i / 16)) (String (hex_digit (i mod 16)) EmptyString)).

(** [quote(s, safe)], which is [''.join(map(quoter, s))]. *)
Fixpoint quote (s safe : string) : string :=
  match s with
  | EmptyString => EmptyString
  | String c s' => quoter safe c +:+ quote s' safe
  end.

(** [s.replace(' ', '+')]. *)
Fixpoint replace_space_plus (s : string) : string :=
  match s with
  | EmptyString => EmptyString
  | String c s' =>
      String (if Ascii.eqb c " " then "+"%char else c) (replace_space_plus s')
  end.

(** [quote_plus(s)], with its default [safe='']. *)
Definition quote_plus (s : string) : string :=
  if char_in " " s
  then replace_space_plus (quote s " ")
  else quote s "".

(** ['&'.join(l)]. *)
Fixpoint join_amp (l : list string) : string :=
  match l with
  | nil => EmptyString
  | x :: nil => x
  | x :: l' => x +:+ "&" +:+ join_amp l'
  end.

(** [urlencode(query)] on the items of a dict whose keys and values are
    strings. *)
Definition urlencode (query : list (string * string)) : string :=
  join_amp (map (fun '(k, v) => quote_plus k +:+ "=" +:+ quote_plus v) query).

End Urllib.


(** ** The module *)

Module JenkinsScript.
Import Py.

(** The values of [argument_spec], after [AnsibleModule] has parsed them
    and filled in the defaults. [None] is Python's [None]. *)
Record arguments := {
  script : string;
  url : string;
  validate_certs : bool;
  user : option string;
  password : option string;
  args : option (gmap string value)
}.

(** The module object: [module.params] holds the arguments, and the three
    keys that [main] adds to it for [fetch_url] to read. On these three,
    [None] is an absent key. *)
Record AnsibleModule := {
  params : arguments;
  url_username : option string;
  url_password : option string;
  force_basic_auth : option bool
}.

(** [AnsibleModule(argument_spec=...)], once the arguments are parsed. *)
Definition AnsibleModule_init (a : arguments) : AnsibleModule :=
  {| params := a; url_username := None; url_password := None;
     force_basic_auth := None |}.

(** What [fetch_url] is called with. *)
Record request := {
  req_module : AnsibleModule;
  req_url : string;
  req_data : string;
  req_method : string
}.

(** What [fetch_url] returns: [resp], of which only [resp.read()] is
    used, and [info]. *)
Record response := { read : string }.
Record info := { status : Z; msg : string }.

(** The calls [main] makes to its collaborators. *)
Inductive call :=
| Substitute (template : string) (mapping : gmap string value)
| FetchUrl (req : request).

(** How the process ends: [module.exit_json(output=...)],
    [module.fail_json(msg=...)], or an exception nobody catches. *)
Inductive outcome :=
| ExitJson (output : string)
| FailJson (message : string)
| Uncaught (e : exn).

Record state := {
  module : AnsibleModule;
  trace : list call
}.

(** A step of [main] either goes on with a value or ends the process. *)
Definition M (A : Type) : Type := state -> (A + outcome) * state.

#[global] Instance M_ret : MRet M := fun A a s => (inl a, s).
#[global] Instance M_bind : MBind M := fun A B k m s =>
  match m s with
  | (inl a, s') => k a s'
  | (inr o, s') => (inr o, s')
  end.

Definition param {A} (key : arguments -> A) : M A :=
  fun s => (inl (key (params (module s))), s).

Definition set_module (f : AnsibleModule -> AnsibleModule) : M unit :=
  fun s => (inl tt, {| module := f (module s); trace := trace s |}).

Definition set_url_username (v : option string) : M unit :=
  set_module (fun m => {| params := params m; url_username := v;
                          url_password := url_password m;
                          force_basic_auth := force_basic_auth m |}).

Definition set_url_password (v : option string) : M unit :=
  set_module (fun m => {| params := params m; url_username := url_username m;
                          url_password := v;
                          force_basic_auth := force_basic_auth m |}).

Definition set_force_basic_auth (v : bool) : M unit :=
  set_module (fun m => {| params := params m; url_username := url_username m;
                          url_password := url_password m;
                          force_basic_auth := Some v |}).

Definition log (c : call) (s : state) : state :=
  {| module := module s; trace := trace s ++ [c] |}.

Definition fail_json {A} (message : string) : M A :=
  fun s => (inr (FailJson message), s).

Definition exit_json {A} (output : string) : M A :=
  fun s => (inr (ExitJson output), s).

(** [Template(template).substitute(mapping)], recorded in the trace. *)
Definition Template_substitute (template : string) (mapping : gmap string value)
  : M string :=
  fun s =>
    let s' := log (Substitute template mapping) s in
    match Template.substitute template mapping with
    | OK out => (inl out, s')
    | Raise e => (inr (Uncaught e), s')
    end.

(** Lines 150 to 154 of [main] on their own: the value bound to
    [script_contents], or the exception that [substitute] raises. *)
Definition render (template : string) (substitutions : option (gmap string value))
  : res string :=
  match substitutions with
  | Some mapping => Template.substitute template mapping
  | None => OK template
  end.

Section Main.

(** The transport, [ansible.module_utils.urls.fetch_url]. *)
Variable fetch_url : request -> response * info.

Definition call_fetch_url (u data method : string) : M (response * info) :=
  fun s =>
    let req := {| req_module := module s; req_url := u;
                  req_data := data; req_method := method |} in
    (inl (fetch_url req), log (FetchUrl req) s).

Definition main : M unit :=
  u ← param user;
  (if u is Some _ then
     p ← param password;
     (if p is None
      then fail_json "password required when user provided"
      else mret tt);;
     set_url_username u;;
     set_url_password p;;
     set_force_basic_auth true
   else mret tt);;
  a ← param args;
  script_contents ←
    (if a is Some mapping then
       template ← param script;
       Template_substitute template mapping
     else param script);
  base ← param url;
  '(resp, inf) ← call_fetch_url (base +:+ "/scriptText")
                   (Urllib.urlencode [("script", script_contents)])
                   "POST";
  (if bool_decide (status inf ≠ 200%Z)
   then fail_json ("HTTP error " +:+ str_int (status inf) +:+ " " +:+ msg inf)
   else mret tt);;
  let result := read resp in
  (if contains "Exception:" result && contains "at java.lang.Thread" result
   then fail_json ("script failed with stacktrace:" +:+ String "010" " " +:+ result)
   else mret tt);;
  exit_json result.

(** Running the module on the arguments of one invocation. *)
Definition run (a : arguments) : (unit + outcome) * state :=
  main {| module := AnsibleModule_init a; trace := [] |}.

Definition result_of (a : arguments) : unit + outcome := fst (run a).
Definition calls_of (a : arguments) : list call := trace (snd (run a)).

End Main.

(** The module object once lines 142 to 147 are through without a
    failure. *)
Definition with_credentials (a : arguments) : AnsibleModule :=
  match user a with
  | Some _ =>
      {| params := a; url_username := user a; url_password := password a;
         force_basic_auth := Some true |}
  | None => AnsibleModule_init a
  end.

(** The arguments of the [fetch_url] call of lines 157 to 160, for a given
    value of [script_contents]. *)
Definition request_for (a : arguments) (script_contents : string) : request :=
  {| req_module := with_credentials a;
     req_url := url a +:+ "/scriptText";
     req_data := Urllib.urlencode [("script", script_contents)];
     req_method := "POST" |}.

(** The requests among the calls of a trace. *)
Definition requests (tr : list call) : list request :=
  omap (fun c => if c is FetchUrl req then Some req else None) tr.

(** The templates that were rendered, among the calls of a trace. *)
Definition substitutions (tr : list call) : list (string * gmap string value) :=
  omap (fun c => if c is Substitute t m then Some (t, m) else None) tr.

End JenkinsScript.

(** ** The template syntax, as the specification words it

    A well-formed template read as a sequence of pieces: ordinary
    characters, the escape, and the two forms of placeholder. [expand] is
    the rendering the specification describes: every placeholder becomes
    the string of its value, every escape a single delimiter, everything
    else stays, and nothing that was put in is looked at again. *)

Module Syntax.
Import Py Template.

Inductive piece :=
| Text (c : ascii)
| Dollar
| Bare (name : string)
| InBraces (name : string).

Fixpoint all_id_chars (s : string) : bool :=
  match s with
  | EmptyString => true
  | String c s' => id_char c && all_id_chars s'
  end.

(** A name made of identifier characters that does not start with a
    digit. *)
Definition is_identifier (name : string) : bool :=
  match name with
  | EmptyString => false
  | String c name' => id_start c && all_id_chars name'
  end.

Definition unparse_piece (p : piece) : string :=
  match p with
  | Text c => String c EmptyString
  | Dollar => "$$"
  | Bare name => String delimiter name
  | InBraces name => "${" +:+ name +:+ "}"
  end.

Fixpoint unparse (ps : list piece) : string :=
  match ps with
  | nil => EmptyString
  | p :: ps' => unparse_piece p +:+ unparse ps'
  end.

(** Whether a text starts with an identifier character. *)
Definition head_is_id_char (s : string) : bool :=
  match s with
  | String c _ => id_char c
  | EmptyString => false
  end.

(** Whether the text of [ps] starts with an identifier character, which
    would make it part of a bare name written just before it. *)
Definition continues_name (ps : list piece) : bool :=
  match ps with
  | Text c :: _ => id_char c
  | _ => false
  end.

Fixpoint well_formed (ps : list piece) : bool :=
  match ps with
  | nil => true
  | Text c :: ps' => negb (Ascii.eqb c delimiter) && well_formed ps'
  | Dollar :: ps' => well_formed ps'
  | Bare name :: ps' =>
      is_identifier name && negb (continues_name ps') && well_formed ps'
  | InBraces name :: ps' => is_identifier name && well_formed ps'
  end.

(** The names of the placeholders among the pieces. *)
Fixpoint names (ps : list piece) : list string :=
  match ps with
  | nil => nil
  | (Bare name | InBraces name) :: ps' => name :: names ps'
  | _ :: ps' => names ps'
  end.

Definition expand_piece (mapping : gmap string value) (p : piece) : option string :=
  match p with
  | Text c => Some (String c EmptyString)
  | Dollar => Some "$"
  | Bare name | InBraces name => str <$> mapping !! name
  end.

(** Whether the mapping has a value for every placeholder. *)
Definition covers (mapping : gmap string value) (ps : list piece) : bool :=
  forallb (fun name => bool_decide (is_Some (mapping !! name))) (names ps).

(** [None] when a placeholder has no value in the mapping. *)
Fixpoint expand (mapping : gmap string value) (ps : list piece) : option string :=
  match ps with
  | nil => Some EmptyString
  | p :: ps' =>
      match expand_piece mapping p, expand mapping ps' with
      | Some v, Some out => Some (v +:+ out)
      | _, _ => None
      end
  end.

End Syntax.

(** ** Sample invocations *)

Module Samples.
Import Py JenkinsScript Syntax.

(** A transport that answers every request the same way. *)
Definition answering (code : Z) (reason body : string) : request -> response * info :=
  fun _ => ({| read := body |}, {| status := code; msg := reason |}).

Definition set_mode : arguments :=
  {| script := "instance.setMode(${jenkins_mode})";
     url := "http://localhost:8080";
     validate_certs := true;
     user := Some "admin";
     password := Some "secret";
     args := Some {[ "jenkins_mode" := VStr "Node.Mode.EXCLUSIVE" ]} |}.

Definition list_plugins (u p : option string) : arguments :=
  {| script := "println(Jenkins.instance.pluginManager.plugins)";
     url := "https://localhost";
     validate_certs := false;
     user := u;
     password := p;
     args := None |}.

Definition undefined_variable (u p : option string) : arguments :=
  {| script := "instance.setMode(${jenkins_mode}) // costs $$5, $who";
     url := "http://localhost:8080";
     validate_certs := true;
     user := u;
     password := p;
     args := Some {[ "jenkins_mode" := VStr "Node.Mode.EXCLUSIVE" ]} |}.

Definition stack_trace : string :=
  "groovy.lang.MissingPropertyException: No such property: x
	at java.lang.Thread.run(Thread.java:748)".

(** A template with each kind of piece, and a mapping whose values
    themselves look like template syntax. *)
Definition mixed_pieces : list piece :=
  [Text "a"; Text "="; InBraces "x"; Text ","; Bare "y_1"; Dollar; Dollar;
   Bare "x"; Text "-"; Bare "n"; Text " "; InBraces "ok"].

Definition tricky_mapping : gmap string value :=
  <["x" := VStr "${y_1} $$ $x"]> (<["y_1" := VStr "$"]>
  (<["n" := VInt (-42)]> (<["ok" := VBool true]> ∅))).

End Samples.

(** ** Vocabulary for the further properties *)

Module Facts.
Import Py Template Syntax.

(** Whether every character of a string passes a test. *)
Fixpoint all_chars (p : ascii -> bool) (s : string) : bool :=
  match s with
  | EmptyString => true
  | String c s' => p c && all_chars p s'
  end.

(** The characters [quote] leaves alone whatever [safe] is. *)
Definition url_safe (c : ascii) : bool := Urllib.char_in c Urllib.always_safe.

(** The characters that can occur in what [quote_plus] returns. *)
Definition form_char (c : ascii) : bool :=
  url_safe c || Ascii.eqb c "%" || Ascii.eqb c "+".

(** What [quote_plus] makes of one character. *)
Definition quote_plus_char (c : ascii) : string :=
  if Ascii.eqb c " " then "+" else Urllib.quoter "" c.

Fixpoint flat_map_chars (f : ascii -> string) (s : string) : string :=
  match s with
  | EmptyString => EmptyString
  | String c s' => f c +:+ flat_map_chars f s'
  end.

(** The number that [hex_digit] writes as [c], if there is one. *)
Definition hex_value (c : ascii) : option nat :=
  List.find (fun n => Ascii.eqb (Urllib.hex_digit n) c) (List.seq 0 16).

(** Reading one quoted character back off the front of a string. *)
Definition decode_head (s : string) : option (ascii * string) :=
  match s with
  | EmptyString => None
  | String c r =>
      if Ascii.eqb c "+" then Some (" "%char, r)
      else if Ascii.eqb c "%" then
        match r with
        | String h (String l r') =>
            match hex_value h, hex_value l with
            | Some a, Some b => Some (ascii_of_nat (16 * a + b), r')
            | _, _ => None
            end
        | _ => None
        end
      else Some (c, r)
  end.

(** A text written as a template: every delimiter doubled. *)
Fixpoint escape (s : string) : string :=
  match s with
  | EmptyString => EmptyString
  | String c s' =>
      if Ascii.eqb c delimiter
      then String c (String c (escape s'))
      else String c (escape s')
  end.

(** The first placeholder, in the order of the template, that the mapping
    has no value for. *)
Definition first_missing (mapping : gmap string value) (ps : list piece)
  : option string :=
  List.find (fun name => bool_decide (mapping !! name = None)) (names ps).

End Facts.

(** * Properties *)

(** ** Strings *)

Lemma app_assoc (a b c : string) : (a +:+ b) +:+ c = a +:+ (b +:+ c).
Proof. induction a as [|x a IH]; simpl; [reflexivity|]. by rewrite IH. Qed.

Lemma app_nil_r (a : string) : a +:+ "" = a.
Proof. induction a as [|x a IH]; simpl; [reflexivity|]. by rewrite IH. Qed.

Lemma string_length_ind (P : string -> Prop) :
  (forall t, (forall t', String.length t' < String.length t -> P t') -> P t) ->
  forall t, P t.
Proof.
  intros step t.
  remember (String.length t) as n eqn:Hn.
  revert t Hn. induction n as [n IH] using lt_wf_ind.
  intros t ->. apply step. intros t' Hlt. by apply (IH _ Hlt).
Qed.

Lemma startswith_spec needle hay :
  Py.startswith needle hay = true <-> exists post, hay = needle +:+ post.
Proof.
  revert hay. induction needle as [|a n IH]; intros hay; simpl.
  - split; [intros _; by exists hay | done].
  - destruct hay as [|b h].
    + split; [done | intros [post Hpost]; discriminate].
    + destruct (Ascii.eqb_spec a b) as [->|Hne].
      * rewrite IH. split; intros [post Hpost]; exists post.
        -- by rewrite Hpost.
        -- by injection Hpost.
      * split; [done | intros [post Hpost]]. injection Hpost. congruence.
Qed.

(** [needle in hay] holds exactly when [hay] is some text, then [needle],
    then some more text. *)
Lemma contains_spec needle hay :
  Py.contains needle hay = true <->
  exists pre post, hay = pre +:+ needle +:+ post.
Proof.
  induction hay as [|b h IH].
  - simpl. rewrite orb_false_r, startswith_spec. split.
    + intros [post Hpost]. by exists "", post.
    + intros [[|x pre] [post Hpost]]; [by exists post | discriminate].
  - cbn [Py.contains]. rewrite orb_true_iff, startswith_spec, IH. split.
    + intros [[post Hpost] | (pre & post & Hpost)].
      * by exists "", post.
      * exists (String b pre), post. by rewrite Hpost.
    + intros ([|x pre] & post & Hpost).
      * left. by exists post.
      * right. exists pre, post. simpl in Hpost. by injection Hpost.
Qed.

(** ** Unfolding the scanner *)

Section Scanner.
Import Py Template.

Lemma sub_nil m : sub m "" = OK "".
Proof. by simp sub. Qed.

Lemma sub_char m c r :
  Ascii.eqb c delimiter = false ->
  sub m (String c r) = res_bind (sub m r) (fun out => OK (String c out)).
Proof. intros Hc. simp sub. by rewrite Hc. Qed.

Lemma sub_delimiter m r :
  sub m (String delimiter r) =
  let '(mo, rest) := match_after_delimiter r in
  res_bind (convert m mo) (fun v =>
  res_bind (sub m rest) (fun out => OK (v +:+ out))).
Proof. simp sub. simpl. by destruct (match_after_delimiter r). Qed.

Lemma placeholders_nil : placeholders "" = [].
Proof. by simp placeholders. Qed.

Lemma placeholders_char c r :
  Ascii.eqb c delimiter = false -> placeholders (String c r) = placeholders r.
Proof. intros Hc. simp placeholders. by rewrite Hc. Qed.

Lemma placeholders_delimiter r :
  placeholders (String delimiter r) =
  let '(mo, rest) := match_after_delimiter r in
  match mo with
  | Named n | Braced n => n :: placeholders rest
  | _ => placeholders rest
  end.
Proof.
  simp placeholders. simpl.
  by destruct (match_after_delimiter r) as [[] rest].
Qed.

(** Case analysis on the head of a template, with the scanner unfolded
    one step and the induction hypothesis ready for the rest. *)
Ltac scan_step t IH :=
  destruct t as [|c r];
  [ rewrite ?sub_nil, ?placeholders_nil
  | destruct (Ascii.eqb_spec c delimiter) as [->|Hc%Ascii.eqb_neq];
    [ rewrite ?sub_delimiter, ?placeholders_delimiter;
      pose proof (match_after_delimiter_length r) as Hlen;
      destruct (match_after_delimiter r) as [mo rest] eqn:Hmo;
      simpl in Hlen;
      assert (String.length rest < String.length (String delimiter r)) as Hrest
        by (simpl; lia)
    | repeat (rewrite sub_char by exact Hc);
      repeat (rewrite placeholders_char by exact Hc);
      assert (String.length r < String.length (String c r)) as Hrest
        by (simpl; lia) ] ].

(** The scan looks at the mapping only under the names of the
    placeholders. *)
Lemma sub_agree (m1 m2 : gmap string value) t :
  (forall n, n ∈ placeholders t -> m1 !! n = m2 !! n) ->
  sub m1 t = sub m2 t.
Proof.
  induction t as [t IH] using string_length_ind.
  scan_step t IH; intros Hagree.
  - reflexivity.
  - assert (sub m1 rest = sub m2 rest) as ->.
    { apply IH; [done|]. intros n Hn. apply Hagree.
      destruct mo; try done; by apply list_elem_of_further. }
    assert (convert m1 mo = convert m2 mo) as ->; [|done].
    destruct mo; simpl; try done; rewrite Hagree; try done;
      apply list_elem_of_here.
  - by rewrite (IH r Hrest Hagree).
Qed.

(** A placeholder without a value makes the scan raise. *)
Lemma sub_missing (m : gmap string value) t n :
  n ∈ placeholders t -> m !! n = None -> exists e, sub m t = Raise e.
Proof.
  induction t as [t IH] using string_length_ind.
  scan_step t IH; intros Hin Hnone.
  - by apply elem_of_nil in Hin.
  - destruct (convert m mo) as [v|e] eqn:Hconv; simpl; [|by exists e].
    assert (n ∈ placeholders rest) as Hin'.
    { destruct mo as [|name|name|]; try done;
        apply elem_of_cons in Hin as [->|Hin]; try done;
        simpl in Hconv; by rewrite Hnone in Hconv. }
    destruct (IH rest Hrest Hin' Hnone) as [e ->]. by exists e.
  - destruct (IH r Hrest Hin Hnone) as [e ->]. by exists e.
Qed.

End Scanner.

(** ** The scanner on well-formed templates *)

Section Grammar.
Import Py Template Syntax.

Lemma id_start_not_delimiter c : id_start c = true -> Ascii.eqb c delimiter = false.
Proof.
  intros Hc. destruct (Ascii.eqb_spec c delimiter) as [->|]; [|done].
  by vm_compute in Hc.
Qed.

Lemma span_id_chars_app name rest :
  all_id_chars name = true -> head_is_id_char rest = false ->
  span_id_chars (name +:+ rest) = (name, rest).
Proof.
  intros Hname Hrest. induction name as [|c n IH]; simpl in *.
  - destruct rest as [|d rest]; [done|]. simpl in *. by rewrite Hrest.
  - apply andb_true_iff in Hname as [-> Hn]. by rewrite (IH Hn).
Qed.

Lemma span_id_chars_inv s name rest :
  span_id_chars s = (name, rest) ->
  s = name +:+ rest /\ all_id_chars name = true /\ head_is_id_char rest = false.
Proof.
  revert name rest. induction s as [|c s IH]; intros name rest; simpl.
  - by intros [= <- <-].
  - destruct (id_char c) eqn:Hc.
    + destruct (span_id_chars s) as [n r] eqn:Hs. intros [= <- <-].
      destruct (IH n r eq_refl) as (-> & Hn & Hr).
      simpl. by rewrite Hc, Hn.
    + intros [= <- <-]. simpl. by rewrite Hc.
Qed.

Lemma match_named name rest :
  is_identifier name = true -> head_is_id_char rest = false ->
  match_after_delimiter (name +:+ rest) = (Named name, rest).
Proof.
  destruct name as [|c n]; [done|]. simpl.
  intros [Hc Hn]%andb_true_iff Hrest.
  by rewrite (id_start_not_delimiter c Hc), Hc, (span_id_chars_app n rest Hn Hrest).
Qed.

Lemma match_braced name rest :
  is_identifier name = true ->
  match_after_delimiter (String "{" (name +:+ String "}" rest)) = (Braced name, rest).
Proof.
  destruct name as [|c n]; [done|]. simpl.
  intros [Hc Hn]%andb_true_iff.
  by rewrite Hc, (span_id_chars_app n (String "}" rest) Hn eq_refl).
Qed.

(** What the text after a delimiter looks like, by the group that
    matched. *)
Lemma match_after_delimiter_inv r mo rest :
  match_after_delimiter r = (mo, rest) ->
  match mo with
  | Escaped => r = String delimiter rest
  | Named name =>
      r = name +:+ rest /\ is_identifier name = true /\ head_is_id_char rest = false
  | Braced name =>
      r = String "{" (name +:+ String "}" rest) /\ is_identifier name = true
  | Invalid => rest = r
  end.
Proof.
  destruct r as [|c r']; simpl; [by intros [= <- <-]|].
  destruct (Ascii.eqb_spec c delimiter) as [->|Hc]; [by intros [= <- <-]|].
  destruct (id_start c) eqn:Hid.
  { destruct (span_id_chars r') as [n r0] eqn:Hs. intros [= <- <-].
    destruct (span_id_chars_inv _ _ _ Hs) as (-> & Hn & Hr).
    simpl. by rewrite Hid, Hn. }
  destruct (Ascii.eqb_spec c "{") as [->|Hb]; [|by intros [= <- <-]].
  destruct r' as [|c1 r1]; [by intros [= <- <-]|].
  destruct (id_start c1) eqn:Hid1; [|by intros [= <- <-]].
  destruct (span_id_chars r1) as [n r0] eqn:Hs.
  destruct (span_id_chars_inv _ _ _ Hs) as (-> & Hn & Hr).
  destruct r0 as [|c2 r2]; [by intros [= <- <-]|].
  destruct (Ascii.eqb_spec c2 "}") as [->|Hc2]; [|by intros [= <- <-]].
  intros [= <- <-]. simpl. by rewrite Hid1, Hn.
Qed.

Lemma head_unparse ps :
  well_formed ps = true -> head_is_id_char (unparse ps) = continues_name ps.
Proof. by destruct ps as [|[c| |name|name] ps']. Qed.

(** On a well-formed template the scan returns the expansion. *)
Lemma sub_unparse (m : gmap string value) ps out :
  well_formed ps = true -> expand m ps = Some out ->
  sub m (unparse ps) = OK out.
Proof.
  revert out. induction ps as [|p ps IH]; intros out Hwf Hexp.
  - injection Hexp as <-. apply sub_nil.
  - cbn [expand] in Hexp.
    destruct (expand_piece m p) as [v|] eqn:Hp; [|done].
    destruct (expand m ps) as [out'|] eqn:Hps; [|done].
    injection Hexp as <-.
    destruct p as [c| |name|name]; simpl in Hwf, Hp |- *.
    + apply andb_true_iff in Hwf as [Hc%negb_true_iff Hwf].
      injection Hp as <-.
      by rewrite (sub_char _ _ _ Hc), (IH out' Hwf eq_refl).
    + injection Hp as <-.
      rewrite sub_delimiter. simpl. by rewrite (IH out' Hwf eq_refl).
    + apply andb_true_iff in Hwf as [[Hname Hcont%negb_true_iff]%andb_true_iff Hwf].
      rewrite sub_delimiter, match_named; [|done|by rewrite head_unparse].
      simpl. destruct (m !! name) as [val|]; [|done].
      injection Hp as <-. simpl. by rewrite (IH out' Hwf eq_refl).
    + apply andb_true_iff in Hwf as [Hname Hwf].
      rewrite app_assoc. simpl.
      rewrite sub_delimiter, match_braced by done.
      simpl. destruct (m !! name) as [val|]; [|done].
      injection Hp as <-. simpl. by rewrite (IH out' Hwf eq_refl).
Qed.

(** Every template on which the scan succeeds is well formed, and the
    result is its expansion. *)
Lemma sub_ok_inv (m : gmap string value) t out :
  sub m t = OK out ->
  exists ps, well_formed ps = true /\ unparse ps = t /\ expand m ps = Some out.
Proof.
  revert out. induction t as [t IH] using string_length_ind. intros out.
  destruct t as [|c r].
  { rewrite sub_nil. intros [= <-]. by exists []. }
  destruct (Ascii.eqb_spec c delimiter) as [->|Hc%Ascii.eqb_neq].
  - rewrite sub_delimiter.
    pose proof (match_after_delimiter_length r) as Hlen.
    destruct (match_after_delimiter r) as [mo rest] eqn:Hmo. simpl in Hlen.
    apply match_after_delimiter_inv in Hmo.
    destruct (convert m mo) as [v|] eqn:Hconv; [simpl|done].
    destruct (sub m rest) as [out'|] eqn:Hsub; [simpl|done].
    intros [= <-].
    destruct (IH rest ltac:(simpl; lia) out' Hsub) as (ps & Hwf & <- & Hexp).
    destruct mo as [|name|name|]; simpl in Hconv; [| | |done].
    + injection Hconv as <-. subst r. exists (Dollar :: ps).
      simpl. by rewrite Hexp.
    + destruct Hmo as (-> & Hname & Hhead).
      destruct (m !! name) as [val|] eqn:Hval; [|done]. injection Hconv as <-.
      exists (Bare name :: ps). simpl.
      rewrite Hname, Hwf, <- (head_unparse ps Hwf), Hhead, Hval, Hexp. done.
    + destruct Hmo as (-> & Hname).
      destruct (m !! name) as [val|] eqn:Hval; [|done]. injection Hconv as <-.
      exists (InBraces name :: ps). simpl.
      rewrite Hname, Hwf, Hval, Hexp. simpl. by rewrite app_assoc.
  - rewrite (sub_char _ _ _ Hc).
    destruct (sub m r) as [out'|] eqn:Hsub; [simpl|done]. intros [= <-].
    destruct (IH r ltac:(simpl; lia) out' Hsub) as (ps & Hwf & <- & Hexp).
    exists (Text c :: ps). simpl. by rewrite Hc, Hwf, Hexp.
Qed.

(** The placeholders the scanner finds in a well-formed template are the
    ones that were written. *)
Lemma placeholders_unparse ps :
  well_formed ps = true -> placeholders (unparse ps) = names ps.
Proof.
  induction ps as [|p ps IH]; intros Hwf; [apply placeholders_nil|].
  destruct p as [c| |name|name]; simpl in Hwf |- *.
  - apply andb_true_iff in Hwf as [Hc%negb_true_iff Hwf].
    by rewrite (placeholders_char _ _ Hc), IH.
  - rewrite placeholders_delimiter. simpl. by apply IH.
  - apply andb_true_iff in Hwf as [[Hname Hcont%negb_true_iff]%andb_true_iff Hwf].
    rewrite placeholders_delimiter, match_named; [|done|by rewrite head_unparse].
    by rewrite IH.
  - apply andb_true_iff in Hwf as [Hname Hwf].
    rewrite app_assoc. simpl.
    rewrite placeholders_delimiter, match_braced by done.
    by rewrite IH.
Qed.

(** A mapping that covers the placeholders gives an expansion. *)
Lemma covers_expand (m : gmap string value) ps :
  covers m ps = true -> exists out, expand m ps = Some out.
Proof.
  unfold covers. induction ps as [|p ps IH]; intros Hcov; [by eexists|].
  destruct p as [c| |name|name]; simpl in Hcov |- *.
  - destruct (IH Hcov) as [out ->]. by eexists.
  - destruct (IH Hcov) as [out ->]. by eexists.
  - apply andb_true_iff in Hcov as [[val Hval]%bool_decide_eq_true Hcov].
    destruct (IH Hcov) as [out ->]. rewrite Hval. by eexists.
  - apply andb_true_iff in Hcov as [[val Hval]%bool_decide_eq_true Hcov].
    destruct (IH Hcov) as [out ->]. rewrite Hval. by eexists.
Qed.

End Grammar.

(** ** Running [main] *)

Section Runs.
Import Py JenkinsScript.

Variable fetch_url : request -> response * info.

Ltac exec :=
  unfold result_of, calls_of, run, main, mbind, M_bind, mret, M_ret, param,
    fail_json, exit_json, set_url_username, set_url_password,
    set_force_basic_auth, set_module, call_fetch_url, Template_substitute,
    log, render, AnsibleModule_init in *;
  simpl in *.

(** The end of a run, from the answer of the transport on. *)
Ltac answer :=
  destruct (fetch_url _) as [resp inf]; simpl;
  destruct (bool_decide _); [done|]; simpl;
  by destruct (_ && _).

(** A user without a password: the run ends before anything is called. *)
Lemma run_config_error a u :
  user a = Some u -> password a = None ->
  run fetch_url a =
  (inr (FailJson "password required when user provided"),
   {| module := AnsibleModule_init a; trace := [] |}).
Proof. intros Hu Hp. exec. rewrite Hu. simpl. by rewrite Hp. Qed.

(** The credentials are fine and [substitute] raises: the run ends there. *)
Lemma run_render_raises a m e :
  (user a = None \/ is_Some (password a)) ->
  args a = Some m -> Template.substitute (script a) m = Raise e ->
  run fetch_url a =
  (inr (Uncaught e),
   {| module := with_credentials a; trace := [Substitute (script a) m] |}).
Proof.
  intros Hcred Ha He. unfold with_credentials. exec.
  destruct (user a) as [u|]; simpl.
  - destruct Hcred as [|[p Hp]]; [done|]. rewrite Hp. simpl.
    rewrite Ha. simpl. by rewrite He.
  - rewrite Ha. simpl. by rewrite He.
Qed.

(** The credentials are fine and the script is rendered: one request
    goes out, and its answer decides the outcome. *)
Lemma run_fetched a script_contents :
  (user a = None \/ is_Some (password a)) ->
  render (script a) (args a) = OK script_contents ->
  let req := request_for a script_contents in
  let resp := (fetch_url req).1 in
  let inf := (fetch_url req).2 in
  run fetch_url a =
  (inr (if bool_decide (status inf ≠ 200%Z)
        then FailJson ("HTTP error " +:+ str_int (status inf) +:+ " " +:+ msg inf)
        else if contains "Exception:" (read resp)
                && contains "at java.lang.Thread" (read resp)
        then FailJson ("script failed with stacktrace:" +:+ String "010" " "
                       +:+ read resp)
        else ExitJson (read resp)),
   {| module := with_credentials a;
      trace := match args a with
               | Some m => [Substitute (script a) m]
               | None => []
               end ++ [FetchUrl req] |}).
Proof.
  intros Hcred Hr. unfold request_for, with_credentials. exec.
  destruct (user a) as [u|]; simpl.
  - destruct Hcred as [|[p Hp]]; [done|]. rewrite Hp. simpl.
    destruct (args a) as [m|]; simpl; [rewrite Hr; simpl | injection Hr as <-];
      answer.
  - destruct (args a) as [m|]; simpl; [rewrite Hr; simpl | injection Hr as <-];
      answer.
Qed.

(** Every run is of one of these three kinds. *)
Lemma run_cases a :
  (exists u, user a = Some u /\ password a = None)
  \/ (user a = None \/ is_Some (password a)) /\
     ((exists m e, args a = Some m /\ Template.substitute (script a) m = Raise e)
      \/ exists script_contents, render (script a) (args a) = OK script_contents).
Proof.
  destruct (user a) as [u|] eqn:Hu.
  - destruct (password a) as [p|] eqn:Hp; [|left; by exists u].
    right. split; [right; by exists p|].
    unfold render. destruct (args a) as [m|]; [|right; by eexists].
    destruct (Template.substitute (script a) m) as [out|e] eqn:Hs.
    + right. by exists out.
    + left. by exists m, e.
  - right. split; [by left|].
    unfold render. destruct (args a) as [m|]; [|right; by eexists].
    destruct (Template.substitute (script a) m) as [out|e] eqn:Hs.
    + right. by exists out.
    + left. by exists m, e.
Qed.

Lemma requests_fetched a script_contents :
  (user a = None \/ is_Some (password a)) ->
  render (script a) (args a) = OK script_contents ->
  requests (calls_of fetch_url a) = [request_for a script_contents].
Proof.
  intros Hcred Hr. unfold calls_of.
  rewrite (run_fetched a script_contents Hcred Hr). simpl.
  by destruct (args a).
Qed.

Lemma substitutions_fetched a script_contents :
  (user a = None \/ is_Some (password a)) ->
  render (script a) (args a) = OK script_contents ->
  substitutions (calls_of fetch_url a) =
  match args a with Some m => [(script a, m)] | None => [] end.
Proof.
  intros Hcred Hr. unfold calls_of.
  rewrite (run_fetched a script_contents Hcred Hr). simpl.
  by destruct (args a).
Qed.

(** A request in the trace is the one request of a run of the third
    kind. *)
Lemma requests_inv a req :
  req ∈ requests (calls_of fetch_url a) ->
  (user a = None \/ is_Some (password a)) /\
  exists script_contents,
    render (script a) (args a) = OK script_contents /\
    req = request_for a script_contents.
Proof.
  intros Hreq.
  destruct (run_cases a) as [(u & Hu & Hp) | [Hcred [(m & e & Ha & He) | [sc Hr]]]].
  - unfold calls_of in Hreq. rewrite (run_config_error a u Hu Hp) in Hreq.
    by apply elem_of_nil in Hreq.
  - unfold calls_of in Hreq. rewrite (run_render_raises a m e Hcred Ha He) in Hreq.
    by apply elem_of_nil in Hreq.
  - split; [done|]. exists sc. split; [done|].
    rewrite (requests_fetched a sc Hcred Hr) in Hreq.
    by apply list_elem_of_singleton in Hreq.
Qed.

End Runs.

(** ** The response *)

Section Response.
Import Py JenkinsScript Samples.

(** C1. When the transport answers a run with status 200, the run fails
    with the message ["script failed with stacktrace:\n "] followed by the
    whole body exactly when the body contains both ["Exception:"] and
    ["at java.lang.Thread"]; otherwise it exits with the body, untouched,
    as its output. *)
Theorem status_200_outcome (fetch_url : request -> response * info) a req :
  req ∈ requests (calls_of fetch_url a) ->
  status (fetch_url req).2 = 200%Z ->
  (result_of fetch_url a =
     inr (FailJson ("script failed with stacktrace:" +:+ String "010" " "
                    +:+ read (fetch_url req).1))
   <-> (exists pre post, read (fetch_url req).1 = pre +:+ "Exception:" +:+ post)
       /\ (exists pre post,
             read (fetch_url req).1 = pre +:+ "at java.lang.Thread" +:+ post))
  /\ (~ ((exists pre post, read (fetch_url req).1 = pre +:+ "Exception:" +:+ post)
         /\ (exists pre post,
               read (fetch_url req).1 = pre +:+ "at java.lang.Thread" +:+ post))
      -> result_of fetch_url a = inr (ExitJson (read (fetch_url req).1))).
Proof.
  intros Hreq Hstatus.
  destruct (requests_inv fetch_url a req Hreq) as (Hcred & sc & Hr & ->).
  unfold result_of. rewrite (run_fetched fetch_url a sc Hcred Hr).
  cbn [fst]. rewrite <- !contains_spec.
  rewrite bool_decide_eq_false_2 by (by intros Hne; apply Hne).
  destruct (contains "Exception:" _); destruct (contains "at java.lang.Thread" _);
    cbn [andb]; (split; [split|]); try done;
    try (by intros [? ?]); intros Hno; by destruct Hno.
Qed.

Lemma status_200_outcome_witness :
  request_for set_mode "instance.setMode(Node.Mode.EXCLUSIVE)"
    ∈ requests (calls_of (answering 200 "OK" stack_trace) set_mode)
  /\ status (answering 200 "OK" stack_trace
               (request_for set_mode "instance.setMode(Node.Mode.EXCLUSIVE)")).2
     = 200%Z
  /\ result_of (answering 200 "OK" stack_trace) set_mode
     = inr (FailJson ("script failed with stacktrace:" +:+ String "010" " "
                      +:+ stack_trace)).
Proof.
  assert (request_for set_mode "instance.setMode(Node.Mode.EXCLUSIVE)"
            ∈ requests (calls_of (answering 200 "OK" stack_trace) set_mode))
    as Hreq by (vm_compute; apply list_elem_of_here).
  split; [exact Hreq|]. split; [reflexivity|].
  apply (status_200_outcome _ _ _ Hreq eq_refl).
  split; apply contains_spec; reflexivity.
Defined.

(** C3. When the transport answers a run with a status other than 200,
    the run fails with a message made of the status code and the status
    text of the transport. The body plays no part: a transport that gives
    the same status and text with any other bodies leads to the same
    outcome. *)
Theorem other_status_outcome (fetch_url : request -> response * info) a req :
  req ∈ requests (calls_of fetch_url a) ->
  status (fetch_url req).2 ≠ 200%Z ->
  result_of fetch_url a =
    inr (FailJson ("HTTP error " +:+ str_int (status (fetch_url req).2)
                   +:+ " " +:+ msg (fetch_url req).2))
  /\ forall fetch_url' : request -> response * info,
       (forall r, (fetch_url' r).2 = (fetch_url r).2) ->
       result_of fetch_url' a = result_of fetch_url a.
Proof.
  intros Hreq Hstatus.
  destruct (requests_inv fetch_url a req Hreq) as (Hcred & sc & Hr & ->).
  unfold result_of. rewrite (run_fetched fetch_url a sc Hcred Hr). simpl.
  rewrite bool_decide_eq_true_2 by done.
  split; [done|]. intros fetch_url' Hsame.
  rewrite (run_fetched fetch_url' a sc Hcred Hr). simpl.
  rewrite Hsame. by rewrite bool_decide_eq_true_2.
Qed.

Lemma other_status_outcome_witness :
  request_for set_mode "instance.setMode(Node.Mode.EXCLUSIVE)"
    ∈ requests (calls_of (answering 500 "Server Error" stack_trace) set_mode)
  /\ status (answering 500 "Server Error" stack_trace
               (request_for set_mode "instance.setMode(Node.Mode.EXCLUSIVE)")).2
     ≠ 200%Z
  /\ result_of (answering 500 "Server Error" stack_trace) set_mode
     = inr (FailJson "HTTP error 500 Server Error").
Proof.
  assert (request_for set_mode "instance.setMode(Node.Mode.EXCLUSIVE)"
            ∈ requests (calls_of (answering 500 "Server Error" stack_trace) set_mode))
    as Hreq by (vm_compute; apply list_elem_of_here).
  assert (status (answering 500 "Server Error" stack_trace
                    (request_for set_mode "instance.setMode(Node.Mode.EXCLUSIVE)")).2
          ≠ 200%Z) as Hstatus by (simpl; lia).
  split; [exact Hreq|]. split; [exact Hstatus|].
  exact (proj1 (other_status_outcome _ _ _ Hreq Hstatus)).
Defined.

End Response.

(** ** Credentials and the request *)

Section Request.
Import Py JenkinsScript Samples.

Lemma urlencode_script script_contents :
  Urllib.urlencode [("script", script_contents)]
  = "script=" +:+ Urllib.quote_plus script_contents.
Proof. reflexivity. Qed.

(** C2. A user without a password: the run fails with ["password required
    when user provided"], and the transport is never called. *)
Theorem user_without_password (fetch_url : request -> response * info) a u :
  user a = Some u -> password a = None ->
  result_of fetch_url a = inr (FailJson "password required when user provided")
  /\ requests (calls_of fetch_url a) = [].
Proof.
  intros Hu Hp. unfold result_of, calls_of.
  by rewrite (run_config_error fetch_url a u Hu Hp).
Qed.

Lemma user_without_password_witness :
  user (list_plugins (Some "admin") None) = Some "admin"
  /\ password (list_plugins (Some "admin") None) = None
  /\ result_of (answering 200 "OK" "[]") (list_plugins (Some "admin") None)
     = inr (FailJson "password required when user provided")
  /\ requests (calls_of (answering 200 "OK" "[]") (list_plugins (Some "admin") None))
     = [].
Proof.
  split; [reflexivity|]. split; [reflexivity|].
  exact (user_without_password (answering 200 "OK" "[]")
           (list_plugins (Some "admin") None) "admin" eq_refl eq_refl).
Defined.

(** C10. The credentials are checked before the script is rendered: a
    user without a password, on a template that could not be rendered
    either, fails with the message about the password, and nothing at
    all was called, [substitute] included. *)
Theorem credentials_before_rendering (fetch_url : request -> response * info) a u e :
  user a = Some u -> password a = None ->
  render (script a) (args a) = Raise e ->
  result_of fetch_url a = inr (FailJson "password required when user provided")
  /\ calls_of fetch_url a = []
  /\ substitutions (calls_of fetch_url a) = [].
Proof.
  intros Hu Hp _. unfold result_of, calls_of.
  by rewrite (run_config_error fetch_url a u Hu Hp).
Qed.

Lemma credentials_before_rendering_witness :
  user (undefined_variable (Some "admin") None) = Some "admin"
  /\ password (undefined_variable (Some "admin") None) = None
  /\ render (script (undefined_variable (Some "admin") None))
       (args (undefined_variable (Some "admin") None))
     = Raise (KeyError "who")
  /\ result_of (answering 200 "OK" "[]") (undefined_variable (Some "admin") None)
     = inr (FailJson "password required when user provided")
  /\ calls_of (answering 200 "OK" "[]") (undefined_variable (Some "admin") None) = []
  /\ substitutions
       (calls_of (answering 200 "OK" "[]") (undefined_variable (Some "admin") None))
     = [].
Proof.
  assert (render (script (undefined_variable (Some "admin") None))
            (args (undefined_variable (Some "admin") None))
          = Raise (KeyError "who")) as Hr by (vm_compute; reflexivity).
  split; [reflexivity|]. split; [reflexivity|]. split; [exact Hr|].
  exact (credentials_before_rendering (answering 200 "OK" "[]")
           (undefined_variable (Some "admin") None) "admin" (KeyError "who")
           eq_refl eq_refl Hr).
Defined.

(** C7. A run that reaches the transport sends exactly one request: a
    POST to the url with ["/scriptText"] appended, whose data is the form
    field [script] set to the rendered script, url-encoded. With a user
    and a password it carries just these as the credentials of forced
    basic authentication; they appear nowhere in the url. *)
Theorem single_post_request (fetch_url : request -> response * info) a :
  requests (calls_of fetch_url a) ≠ [] ->
  exists script_contents req,
    render (script a) (args a) = OK script_contents
    /\ requests (calls_of fetch_url a) = [req]
    /\ req_method req = "POST"
    /\ req_url req = url a +:+ "/scriptText"
    /\ req_data req = "script=" +:+ Urllib.quote_plus script_contents
    /\ params (req_module req) = a
    /\ forall u p, user a = Some u -> password a = Some p ->
         url_username (req_module req) = Some u
         /\ url_password (req_module req) = Some p
         /\ force_basic_auth (req_module req) = Some true.
Proof.
  intros Hsent.
  destruct (run_cases a) as [(u & Hu & Hp) | [Hcred [(m & e & Ha & He) | [sc Hr]]]].
  - unfold calls_of in Hsent. by rewrite (run_config_error _ a u Hu Hp) in Hsent.
  - unfold calls_of in Hsent. by rewrite (run_render_raises _ a m e Hcred Ha He) in Hsent.
  - exists sc, (request_for a sc).
    split; [done|]. split; [by apply requests_fetched|].
    unfold request_for, with_credentials. cbn [req_method req_url req_data req_module].
    repeat split; try done.
    + by destruct (user a).
    + destruct (user a); [done|discriminate].
    + destruct (user a); [done|discriminate].
    + destruct (user a); [done|discriminate].
Qed.

Lemma single_post_request_witness :
  requests (calls_of (answering 200 "OK" "Result: true") set_mode) ≠ []
  /\ requests (calls_of (answering 200 "OK" "Result: true") set_mode)
     = [ {| req_module := {| params := set_mode;
                             url_username := Some "admin";
                             url_password := Some "secret";
                             force_basic_auth := Some true |};
            req_url := "http://localhost:8080/scriptText";
            req_data := "script=instance.setMode%28Node.Mode.EXCLUSIVE%29";
            req_method := "POST" |} ].
Proof.
  assert (requests (calls_of (answering 200 "OK" "Result: true") set_mode) ≠ [])
    as Hsent by (vm_compute; discriminate).
  split; [exact Hsent|].
  destruct (single_post_request _ _ Hsent) as (sc & req & _ & Hone & _).
  rewrite Hone. vm_compute in Hone. injection Hone as <-. reflexivity.
Defined.

(** C8. A password without a user is not an error of configuration; it
    is left aside, and the request, which goes out as soon as the script
    is rendered, carries no credentials. *)
Theorem password_without_user (fetch_url : request -> response * info) a p :
  user a = None -> password a = Some p ->
  result_of fetch_url a ≠ inr (FailJson "password required when user provided")
  /\ (forall script_contents,
        render (script a) (args a) = OK script_contents ->
        exists req, requests (calls_of fetch_url a) = [req])
  /\ (forall req, req ∈ requests (calls_of fetch_url a) ->
        url_username (req_module req) = None
        /\ url_password (req_module req) = None
        /\ force_basic_auth (req_module req) = None).
Proof.
  intros Hu Hp. assert (user a = None \/ is_Some (password a)) as Hcred by by left.
  split; [|split].
  - destruct (run_cases a) as [(u & Hu' & _) | [_ [(m & e & Ha & He) | [sc Hr]]]].
    + congruence.
    + unfold result_of. by rewrite (run_render_raises _ a m e Hcred Ha He).
    + unfold result_of. rewrite (run_fetched _ a sc Hcred Hr). cbn [fst].
      destruct (bool_decide _); [simpl; discriminate|].
      destruct (_ && _); simpl; discriminate.
  - intros sc Hr. exists (request_for a sc). by apply requests_fetched.
  - intros req Hreq.
    destruct (requests_inv _ a req Hreq) as (_ & sc & _ & ->).
    unfold request_for, with_credentials. rewrite Hu. done.
Qed.

Lemma password_without_user_witness :
  user (list_plugins None (Some "secret")) = None
  /\ password (list_plugins None (Some "secret")) = Some "secret"
  /\ result_of (answering 200 "OK" "[]") (list_plugins None (Some "secret"))
     ≠ inr (FailJson "password required when user provided").
Proof.
  split; [reflexivity|]. split; [reflexivity|].
  exact (proj1 (password_without_user (answering 200 "OK" "[]")
                  (list_plugins None (Some "secret")) "secret" eq_refl eq_refl)).
Defined.

End Request.

(** ** Rendering *)

Section Rendering.
Import Py Template JenkinsScript Syntax Samples.

(** C4, as the code has it. On a template made of text, [$$] escapes,
    [${name}] and [$name] placeholders and no other [$], with a mapping
    that has a value for every placeholder,
    rendering returns the expansion: each placeholder replaced by the
    string of its value, each escape by one [$], the text kept. The values
    are put in as they are, whatever template syntax they contain. *)
Theorem render_expands (mapping : gmap string value) ps :
  well_formed ps = true -> covers mapping ps = true ->
  exists out,
    expand mapping ps = Some out
    /\ render (unparse ps) (Some mapping) = OK out.
Proof.
  intros Hwf Hcov. destruct (covers_expand mapping ps Hcov) as [out Hexp].
  exists out. split; [done|]. by apply sub_unparse.
Qed.

Lemma render_expands_witness :
  well_formed mixed_pieces = true
  /\ covers tricky_mapping mixed_pieces = true
  /\ unparse mixed_pieces = "a=${x},$y_1$$$$$x-$n ${ok}"
  /\ render "a=${x},$y_1$$$$$x-$n ${ok}" (Some tricky_mapping)
     = OK "a=${y_1} $$ $x,$$$${y_1} $$ $x--42 True".
Proof.
  split; [reflexivity|]. split; [reflexivity|]. split; [reflexivity|].
  destruct (render_expands tricky_mapping mixed_pieces eq_refl eq_refl)
    as (out & Hexp & Hrender).
  vm_compute in Hexp. injection Hexp as <-. exact Hrender.
Defined.

(** C4 as stated fails on a template with a [$] that starts neither an
    escape nor a placeholder: its one placeholder has a value, and yet
    nothing is replaced, [substitute] raises a [ValueError]. *)
Lemma stray_delimiter_raises :
  placeholders "price: $5 for ${item}" = ["item"]
  /\ ({[ "item" := VStr "tea" ]} : gmap string value) !! "item" = Some (VStr "tea")
  /\ render "price: $5 for ${item}" (Some {[ "item" := VStr "tea" ]})
     = Raise ValueError
  /\ forall out,
       render "price: $5 for ${item}" (Some {[ "item" := VStr "tea" ]}) <> OK out.
Proof.
  assert (render "price: $5 for ${item}" (Some {[ "item" := VStr "tea" ]})
          = Raise ValueError) as Hr by (vm_compute; reflexivity).
  split; [vm_compute; reflexivity|]. split; [reflexivity|].
  split; [exact Hr|]. intros out. rewrite Hr. discriminate.
Qed.

(** C5. A template with a placeholder that the mapping has no value for
    is not rendered: [substitute] raises, so the run neither exits with an
    output nor calls the transport. *)
Theorem missing_key_raises (fetch_url : request -> response * info) a mapping name :
  args a = Some mapping ->
  name ∈ placeholders (script a) ->
  mapping !! name = None ->
  (exists e, render (script a) (args a) = Raise e)
  /\ (forall output, result_of fetch_url a ≠ inr (ExitJson output))
  /\ requests (calls_of fetch_url a) = [].
Proof.
  intros Ha Hin Hnone.
  destruct (sub_missing mapping (script a) name Hin Hnone) as [e He].
  assert (render (script a) (args a) = Raise e) as Hr by (by rewrite Ha).
  split; [by exists e|].
  destruct (run_cases a) as [(u & Hu & Hp) | [Hcred [_ | [sc Hsc]]]].
  - unfold result_of, calls_of. by rewrite (run_config_error _ a u Hu Hp).
  - unfold result_of, calls_of.
    by rewrite (run_render_raises _ a mapping e Hcred Ha He).
  - congruence.
Qed.

Lemma missing_key_raises_witness :
  args (undefined_variable (Some "admin") (Some "secret"))
  = Some {[ "jenkins_mode" := VStr "Node.Mode.EXCLUSIVE" ]}
  /\ "who" ∈ placeholders (script (undefined_variable (Some "admin") (Some "secret")))
  /\ ({[ "jenkins_mode" := VStr "Node.Mode.EXCLUSIVE" ]} : gmap string value) !! "who"
     = None
  /\ requests
       (calls_of (answering 200 "OK" "[]")
          (undefined_variable (Some "admin") (Some "secret")))
     = [].
Proof.
  assert ("who" ∈ placeholders
            (script (undefined_variable (Some "admin") (Some "secret"))))
    as Hin by (vm_compute; apply list_elem_of_further, list_elem_of_here).
  split; [reflexivity|]. split; [exact Hin|]. split; [reflexivity|].
  exact (proj2 (proj2 (missing_key_raises (answering 200 "OK" "[]")
                         (undefined_variable (Some "admin") (Some "secret"))
                         _ "who" eq_refl Hin eq_refl))).
Defined.

(** C9. Keys of the mapping that no placeholder of the template names
    are of no consequence: when rendering succeeds, it succeeds with the
    same result with such a key added, and with such a key removed. *)
Theorem unused_key_ignored template (mapping : gmap string value) key val out :
  key ∉ placeholders template ->
  render template (Some mapping) = OK out ->
  render template (Some (<[key := val]> mapping)) = OK out
  /\ render template (Some (delete key mapping)) = OK out.
Proof.
  intros Hunused <-. unfold render, substitute. split; apply sub_agree.
  - intros n Hn. apply lookup_insert_ne. by intros ->.
  - intros n Hn. apply lookup_delete_ne. by intros ->.
Qed.

Lemma unused_key_ignored_witness :
  ("spare" ∉ placeholders "mode = ${jenkins_mode}; $$spare")
  /\ render "mode = ${jenkins_mode}; $$spare"
       (Some (<["spare" := VInt 1]> {[ "jenkins_mode" := VStr "NORMAL" ]}))
     = OK "mode = NORMAL; $spare"
  /\ render "mode = ${jenkins_mode}; $$spare"
       (Some (delete "spare" {[ "jenkins_mode" := VStr "NORMAL" ]}))
     = OK "mode = NORMAL; $spare".
Proof.
  assert ("spare" ∉ placeholders "mode = ${jenkins_mode}; $$spare") as Hunused.
  { vm_compute. intros Hin. apply list_elem_of_singleton in Hin. discriminate. }
  split; [exact Hunused|].
  apply (unused_key_ignored "mode = ${jenkins_mode}; $$spare"
           {[ "jenkins_mode" := VStr "NORMAL" ]} "spare" (VInt 1)
           "mode = NORMAL; $spare" Hunused).
  vm_compute. reflexivity.
Defined.

(** C6, as the code has it. Without a mapping the script is sent as it
    was written: nothing is scanned, [substitute] is not called, and any
    [$] in it, well placed or not, goes through. *)
Theorem no_mapping_verbatim (fetch_url : request -> response * info) a :
  args a = None ->
  render (script a) (args a) = OK (script a)
  /\ substitutions (calls_of fetch_url a) = []
  /\ forall req, req ∈ requests (calls_of fetch_url a) ->
       req_data req = "script=" +:+ Urllib.quote_plus (script a).
Proof.
  intros Ha. assert (render (script a) (args a) = OK (script a)) as Hr
    by (by rewrite Ha).
  split; [done|]. split.
  - destruct (run_cases a) as [(u & Hu & Hp) | [Hcred [(m & e & Ha' & _) | _]]].
    + unfold calls_of. by rewrite (run_config_error _ a u Hu Hp).
    + congruence.
    + rewrite (substitutions_fetched _ a (script a) Hcred Hr). by rewrite Ha.
  - intros req Hreq.
    destruct (requests_inv _ a req Hreq) as (_ & sc & Hsc & ->).
    rewrite Hr in Hsc. by injection Hsc as <-.
Qed.

Lemma no_mapping_verbatim_witness :
  args (list_plugins None None) = None
  /\ render (script (list_plugins None None)) (args (list_plugins None None))
     = OK "println(Jenkins.instance.pluginManager.plugins)"
  /\ substitutions (calls_of (answering 200 "OK" "[]") (list_plugins None None)) = [].
Proof.
  split; [reflexivity|].
  destruct (no_mapping_verbatim (answering 200 "OK" "[]") (list_plugins None None)
              eq_refl) as (Hr & Hs & _).
  split; [exact Hr | exact Hs].
Defined.

(** C6 as stated fails on an empty mapping: the empty dict is not [None],
    so the template is scanned; a lone [$] is then an error, and an
    escape loses a [$]. *)
Lemma empty_mapping_is_scanned :
  render "cost: $5" (Some ∅) = Raise ValueError
  /\ render "cost: $5" (Some ∅) ≠ OK "cost: $5"
  /\ render "cost: $$5" (Some ∅) = OK "cost: $5".
Proof.
  assert (render "cost: $5" (Some ∅) = Raise ValueError) as Hr
    by (vm_compute; reflexivity).
  split; [exact Hr|]. split; [rewrite Hr; discriminate|].
  vm_compute. reflexivity.
Qed.

End Rendering.

(** ** Worked examples *)

Section Examples.
Import Py JenkinsScript Samples.

(** The second task of the module's EXAMPLES. *)
Example substitute_set_mode :
  Template.substitute "instance.setMode(${jenkins_mode}) $$ $x;"
    (<["jenkins_mode" := VStr "Node.Mode.EXCLUSIVE"]> (<["x" := VInt 42]> ∅))
  = OK "instance.setMode(Node.Mode.EXCLUSIVE) $ 42;".
Proof. vm_compute. reflexivity. Qed.

Example placeholders_mixed :
  Template.placeholders "a ${b} $$c $d_1-$ {e}" = ["b"; "d_1"].
Proof. vm_compute. reflexivity. Qed.

Example substitute_bad_brace :
  Template.substitute "${a b}" {[ "a" := VInt 1 ]} = Raise ValueError.
Proof. vm_compute. reflexivity. Qed.

Example substitute_digit_first :
  Template.substitute "$1x" {[ "x" := VInt 1 ]} = Raise ValueError.
Proof. vm_compute. reflexivity. Qed.

Example urlencode_reserved :
  Urllib.urlencode [("script", "println(a b)~/x_1.-")]
  = "script=println%28a+b%29%7E%2Fx_1.-".
Proof. vm_compute. reflexivity. Qed.

(** The RETURN sample: status 200 and a plain body. *)
Example run_result_true :
  result_of (answering 200 "OK" "Result: true") set_mode
  = inr (ExitJson "Result: true").
Proof. vm_compute. reflexivity. Qed.

(** One of the two marks of a stack trace is not enough. *)
Example run_exception_word_only :
  result_of (answering 200 "OK" "Exception: none thrown") set_mode
  = inr (ExitJson "Exception: none thrown").
Proof. vm_compute. reflexivity. Qed.

Example run_undefined_variable :
  run (answering 200 "OK" "[]") (undefined_variable None None)
  = (inr (Uncaught (KeyError "who")),
     {| module := AnsibleModule_init (undefined_variable None None);
        trace := [Substitute (script (undefined_variable None None))
                    {[ "jenkins_mode" := VStr "Node.Mode.EXCLUSIVE" ]}] |}).
Proof. vm_compute. reflexivity. Qed.

End Examples.

(** * Further properties *)

(** ** The url-encoding of the script *)

Section Quoting.
Import Urllib Facts.

Lemma all_chars_app p a b :
  all_chars p (a +:+ b) = all_chars p a && all_chars p b.
Proof.
  induction a as [|c a IH]; simpl; [done|]. by rewrite IH, andb_assoc.
Qed.

Lemma length_app (a b : string) :
  String.length (a +:+ b) = String.length a + String.length b.
Proof. induction a as [|c a IH]; simpl; [done|]. by rewrite IH. Qed.

Lemma char_in_false_all c s :
  char_in c s = false <-> all_chars (fun d => negb (Ascii.eqb c d)) s = true.
Proof.
  induction s as [|d s IH]; simpl; [done|].
  rewrite orb_false_iff, andb_true_iff, negb_true_iff. by rewrite IH.
Qed.

Lemma replace_space_plus_app a b :
  replace_space_plus (a +:+ b) = replace_space_plus a +:+ replace_space_plus b.
Proof. induction a as [|c a IH]; simpl; [done|]. by rewrite IH. Qed.

(** With spaces kept safe and then turned into [+], each character is
    quoted on its own. *)
Lemma quote_space_flat s :
  replace_space_plus (quote s " ") = flat_map_chars quote_plus_char s.
Proof.
  induction s as [|c s IH]; [done|].
  cbn [quote flat_map_chars]. rewrite replace_space_plus_app, IH. f_equal.
  by destruct c as [[] [] [] [] [] [] [] []].
Qed.

(** Without a space in the string, the other branch does the same. *)
Lemma quote_no_space_flat s :
  char_in " " s = false -> quote s "" = flat_map_chars quote_plus_char s.
Proof.
  induction s as [|c s IH]; [done|].
  cbn [char_in quote flat_map_chars].
  intros [Hc Hs]%orb_false_iff. rewrite (IH Hs). f_equal.
  unfold quote_plus_char. rewrite Ascii.eqb_sym in Hc. by rewrite Hc.
Qed.

(** The two branches of [quote_plus] come to one thing. *)
Lemma quote_plus_flat s : quote_plus s = flat_map_chars quote_plus_char s.
Proof.
  unfold quote_plus. destruct (char_in " " s) eqn:Hs.
  - apply quote_space_flat.
  - by apply quote_no_space_flat.
Qed.

Lemma decode_head_quote c r :
  decode_head (quote_plus_char c +:+ r) = Some (c, r).
Proof. by destruct c as [[] [] [] [] [] [] [] []]. Qed.

Lemma form_char_quote c : all_chars form_char (quote_plus_char c) = true.
Proof. by destruct c as [[] [] [] [] [] [] [] []]. Qed.

Lemma length_quote_plus_char c :
  String.length (quote_plus_char c) = 1 \/ String.length (quote_plus_char c) = 3.
Proof.
  unfold quote_plus_char, quoter.
  destruct (Ascii.eqb c " "); [by left|].
  destruct (_ || _); [by left | by right].
Qed.

Lemma quote_plus_char_safe c :
  url_safe c = true -> quote_plus_char c = String c "".
Proof.
  intros Hc. unfold quote_plus_char, quoter. unfold url_safe in Hc. rewrite Hc.
  destruct (Ascii.eqb_spec c " ") as [->|]; [done|done].
Qed.

Lemma quote_plus_char_unsafe c :
  url_safe c = false ->
  quote_plus_char c = "+" /\ c = " "%char \/ String.length (quote_plus_char c) = 3.
Proof.
  intros Hc. unfold quote_plus_char, quoter. unfold url_safe in Hc. rewrite Hc.
  destruct (Ascii.eqb_spec c " ") as [->|]; [by left | by right].
Qed.

End Quoting.

Section QuotingProperties.
Import Urllib Facts.

Lemma flat_quote_injective s1 s2 :
  flat_map_chars quote_plus_char s1 = flat_map_chars quote_plus_char s2 -> s1 = s2.
Proof.
  revert s2. induction s1 as [|c1 s1 IH]; intros [|c2 s2] Heq; [done| | |].
  - apply (f_equal decode_head) in Heq. cbn [flat_map_chars] in Heq.
    by rewrite decode_head_quote in Heq.
  - apply (f_equal decode_head) in Heq. cbn [flat_map_chars] in Heq.
    by rewrite decode_head_quote in Heq.
  - apply (f_equal decode_head) in Heq. cbn [flat_map_chars] in Heq.
    rewrite !decode_head_quote in Heq. injection Heq as -> Heq.
    by rewrite (IH s2 Heq).
Qed.

Lemma length_flat_quote s :
  String.length s <= String.length (flat_map_chars quote_plus_char s)
  /\ String.length (flat_map_chars quote_plus_char s) <= 3 * String.length s.
Proof.
  induction s as [|c s [IHlo IHhi]]; [simpl; lia|].
  cbn [flat_map_chars]. rewrite length_app.
  destruct (length_quote_plus_char c) as [-> | ->]; simpl; lia.
Qed.

(** X1. Whatever the script, its url-encoding is made of letters, digits,
    [_], [.], [-], [%] and [+] only: no [&], [=], space or control
    character of the script reaches the form body. *)
Theorem quote_plus_alphabet s : all_chars form_char (quote_plus s) = true.
Proof.
  rewrite quote_plus_flat. induction s as [|c s IH]; [done|].
  cbn [flat_map_chars]. by rewrite all_chars_app, form_char_quote, IH.
Qed.

(** X2. The form body tells the script: two different scripts are never
    sent as the same body. *)
Theorem urlencode_script_injective s1 s2 :
  s1 <> s2 -> urlencode [("script", s1)] <> urlencode [("script", s2)].
Proof.
  intros Hne.
  change (urlencode [("script", s1)]) with ("script=" +:+ quote_plus s1).
  change (urlencode [("script", s2)]) with ("script=" +:+ quote_plus s2).
  intros Heq%(inj (String.app "script=")).
  rewrite !quote_plus_flat in Heq. by apply Hne, flat_quote_injective.
Qed.

Lemma urlencode_script_injective_witness :
  "print 1 1" <> "print 1+1"
  /\ urlencode [("script", "print 1 1")] <> urlencode [("script", "print 1+1")].
Proof.
  assert ("print 1 1" <> "print 1+1") as Hne by discriminate.
  split; [exact Hne|]. exact (urlencode_script_injective _ _ Hne).
Defined.

(** X3. Encoding never shortens the script and at most triples it. *)
Theorem quote_plus_length s :
  String.length s <= String.length (quote_plus s)
  /\ String.length (quote_plus s) <= 3 * String.length s.
Proof. rewrite quote_plus_flat. apply length_flat_quote. Qed.

(** X4. The scripts that are sent as they are written are exactly those
    made of letters, digits, [_], [.] and [-]. *)
Theorem quote_plus_fixed_iff_safe s :
  quote_plus s = s <-> all_chars url_safe s = true.
Proof.
  rewrite quote_plus_flat. induction s as [|c s IH]; [done|].
  cbn [flat_map_chars all_chars]. rewrite andb_true_iff. split.
  - intros Heq. destruct (url_safe c) eqn:Hc.
    + rewrite (quote_plus_char_safe c Hc) in Heq. simpl in Heq.
      injection Heq as Heq. split; [done|]. by apply IH.
    + exfalso. destruct (quote_plus_char_unsafe c Hc) as [[Hplus ->] | Hlen].
      * rewrite Hplus in Heq. discriminate.
      * apply (f_equal String.length) in Heq. rewrite length_app, Hlen in Heq.
        pose proof (length_flat_quote s) as [Hlo _]. simpl in Heq. lia.
  - intros [Hc Hs]. rewrite (quote_plus_char_safe c Hc). simpl.
    f_equal. by apply IH.
Qed.

End QuotingProperties.

(** ** More on rendering *)

Section RenderingProperties.
Import Py Template JenkinsScript Syntax Facts Samples.

Ltac scan t :=
  destruct t as [|c r];
  [ rewrite ?sub_nil, ?placeholders_nil
  | destruct (Ascii.eqb_spec c delimiter) as [->|Hc%Ascii.eqb_neq];
    [ rewrite ?sub_delimiter, ?placeholders_delimiter;
      pose proof (match_after_delimiter_length r) as Hlen;
      destruct (match_after_delimiter r) as [mo rest] eqn:Hmo;
      simpl in Hlen;
      assert (String.length rest < String.length (String delimiter r)) as Hrest
        by (simpl; lia)
    | repeat (rewrite sub_char by exact Hc);
      repeat (rewrite placeholders_char by exact Hc);
      assert (String.length r < String.length (String c r)) as Hrest
        by (simpl; lia) ] ].

(** The key of a [KeyError] is a placeholder that has no value. *)
Lemma sub_key_error_inv (m : gmap string value) t key :
  sub m t = Raise (KeyError key) -> key ∈ placeholders t /\ m !! key = None.
Proof.
  induction t as [t IH] using string_length_ind. scan t.
  - done.
  - destruct (convert m mo) as [v|e] eqn:Hconv; simpl.
    + destruct (sub m rest) as [out|e] eqn:Hsub; simpl; [done|].
      intros [= ->]. destruct (IH rest Hrest Hsub) as [Hin Hnone].
      split; [|done]. destruct mo; try done; by apply list_elem_of_further.
    + intros [= ->]. destruct mo as [|name|name|]; simpl in Hconv; try done;
        destruct (m !! name) eqn:Hname; try done; injection Hconv as ->;
        (split; [apply list_elem_of_here | done]).
  - destruct (sub m r) as [out|e] eqn:Hsub; simpl; [done|].
    intros [= ->]. by apply IH.
Qed.

(** On a well-formed template the scan either returns the expansion or
    stops at the first placeholder without a value. *)
Lemma sub_unparse_cases (m : gmap string value) ps :
  well_formed ps = true ->
  match first_missing m ps with
  | Some key => sub m (unparse ps) = Raise (KeyError key)
  | None => exists out, expand m ps = Some out /\ sub m (unparse ps) = OK out
  end.
Proof.
  unfold first_missing.
  induction ps as [|p ps IH]; intros Hwf; [by exists ""; rewrite sub_nil|].
  destruct p as [c| |name|name]; simpl in Hwf |- *.
  - apply andb_true_iff in Hwf as [Hc%negb_true_iff Hwf].
    rewrite (sub_char _ _ _ Hc). specialize (IH Hwf).
    destruct (find _ (names ps)) as [key|].
    + by rewrite IH.
    + destruct IH as (out & -> & ->). by eexists.
  - rewrite sub_delimiter. simpl. specialize (IH Hwf).
    destruct (find _ (names ps)) as [key|].
    + by rewrite IH.
    + destruct IH as (out & -> & ->). by eexists.
  - apply andb_true_iff in Hwf as [[Hname Hcont%negb_true_iff]%andb_true_iff Hwf].
    rewrite sub_delimiter, match_named; [|done|by rewrite head_unparse].
    simpl. specialize (IH Hwf).
    destruct (m !! name) as [val|] eqn:Hval; simpl.
    + destruct (find _ (names ps)) as [key|].
      * by rewrite IH.
      * destruct IH as (out & -> & ->). by eexists.
    + done.
  - apply andb_true_iff in Hwf as [Hname Hwf].
    rewrite app_assoc. simpl.
    rewrite sub_delimiter, match_braced by done.
    simpl. specialize (IH Hwf).
    destruct (m !! name) as [val|] eqn:Hval; simpl.
    + destruct (find _ (names ps)) as [key|].
      * by rewrite IH.
      * destruct IH as (out & -> & ->). by eexists.
    + done.
Qed.

(** X5. A template without a [$] is rendered as it is, whatever the
    mapping holds. *)
Theorem render_without_delimiter template (mapping : gmap string value) :
  Urllib.char_in delimiter template = false ->
  render template (Some mapping) = OK template.
Proof.
  unfold render, substitute.
  induction template as [|c t IH]; intros Hno; [apply sub_nil|].
  cbn [Urllib.char_in] in Hno. apply orb_false_iff in Hno as [Hc Ht].
  rewrite Ascii.eqb_sym in Hc. by rewrite (sub_char _ _ _ Hc), (IH Ht).
Qed.

Lemma render_without_delimiter_witness :
  Urllib.char_in delimiter "println(Jenkins.instance.pluginManager.plugins)" = false
  /\ render "println(Jenkins.instance.pluginManager.plugins)" (Some tricky_mapping)
     = OK "println(Jenkins.instance.pluginManager.plugins)".
Proof.
  split; [reflexivity|].
  exact (render_without_delimiter "println(Jenkins.instance.pluginManager.plugins)"
           tricky_mapping eq_refl).
Defined.

(** X6. Rendering succeeds on exactly the well-formed templates whose
    placeholders all have a value, and what it returns is the expansion. *)
Theorem render_ok_iff template (mapping : gmap string value) out :
  render template (Some mapping) = OK out
  <-> exists ps,
        well_formed ps = true /\ unparse ps = template
        /\ expand mapping ps = Some out.
Proof.
  unfold render, substitute. split.
  - apply sub_ok_inv.
  - intros (ps & Hwf & <- & Hexp). by apply sub_unparse.
Qed.

(** X7. On a well-formed template with a placeholder that has no value,
    rendering raises the [KeyError] of the first such placeholder, in the
    order of the template. *)
Theorem render_first_missing (mapping : gmap string value) ps key :
  well_formed ps = true ->
  first_missing mapping ps = Some key ->
  render (unparse ps) (Some mapping) = Raise (KeyError key).
Proof.
  intros Hwf Hmiss. pose proof (sub_unparse_cases mapping ps Hwf) as Hcases.
  by rewrite Hmiss in Hcases.
Qed.

Lemma render_first_missing_witness :
  well_formed mixed_pieces = true
  /\ first_missing {[ "x" := VInt 1; "n" := VInt 2 ]} mixed_pieces = Some "y_1"
  /\ render "a=${x},$y_1$$$$$x-$n ${ok}" (Some {[ "x" := VInt 1; "n" := VInt 2 ]})
     = Raise (KeyError "y_1").
Proof.
  split; [reflexivity|]. split; [reflexivity|].
  exact (render_first_missing {[ "x" := VInt 1; "n" := VInt 2 ]} mixed_pieces "y_1"
           eq_refl eq_refl).
Defined.

(** X8. The key that a [KeyError] of rendering names is a placeholder of
    the template, and the mapping has no value for it. *)
Theorem render_key_error_sound template (mapping : gmap string value) key :
  render template (Some mapping) = Raise (KeyError key) ->
  key ∈ placeholders template /\ mapping !! key = None.
Proof. apply sub_key_error_inv. Qed.

Lemma render_key_error_sound_witness :
  render "$a ${b} $ $c" (Some {[ "a" := VNone ]}) = Raise (KeyError "b")
  /\ "b" ∈ placeholders "$a ${b} $ $c"
  /\ ({[ "a" := VNone ]} : gmap string value) !! "b" = None.
Proof.
  assert (render "$a ${b} $ $c" (Some {[ "a" := VNone ]}) = Raise (KeyError "b"))
    as Hr by (vm_compute; reflexivity).
  split; [exact Hr|]. exact (render_key_error_sound _ _ _ Hr).
Defined.

(** X9. When every placeholder has a value, rendering raises a
    [ValueError] exactly on the templates that are not well formed. *)
Theorem render_value_error_iff template (mapping : gmap string value) :
  forallb (fun name => bool_decide (is_Some (mapping !! name)))
    (placeholders template) = true ->
  render template (Some mapping) = Raise ValueError
  <-> ~ exists ps, well_formed ps = true /\ unparse ps = template.
Proof.
  intros Hcov. unfold render, substitute. split.
  - intros Herr (ps & Hwf & <-).
    pose proof (sub_unparse_cases mapping ps Hwf) as Hcases.
    destruct (first_missing mapping ps) as [key|].
    + congruence.
    + destruct Hcases as (out & _ & Hok). congruence.
  - intros Hbad. destruct (sub mapping template) as [out|[key|]] eqn:Hsub.
    + destruct (sub_ok_inv _ _ _ Hsub) as (ps & Hwf & Hun & _).
      exfalso. apply Hbad. by exists ps.
    + destruct (sub_key_error_inv _ _ _ Hsub) as [Hin Hnone].
      rewrite forallb_forall in Hcov.
      apply list_elem_of_In, Hcov, bool_decide_eq_true in Hin.
      rewrite Hnone in Hin. by destruct Hin.
    + done.
Qed.

Lemma render_value_error_iff_witness :
  forallb (fun name => bool_decide (is_Some (tricky_mapping !! name)))
    (placeholders "$x costs $5") = true
  /\ (render "$x costs $5" (Some tricky_mapping) = Raise ValueError
      <-> ~ exists ps, well_formed ps = true /\ unparse ps = "$x costs $5").
Proof.
  assert (forallb (fun name => bool_decide (is_Some (tricky_mapping !! name)))
            (placeholders "$x costs $5") = true) as Hcov
    by (vm_compute; reflexivity).
  split; [exact Hcov|].
  exact (render_value_error_iff "$x costs $5" tricky_mapping Hcov).
Defined.

End RenderingProperties.

Section Escaping.
Import Py Template JenkinsScript Facts Samples.

Ltac scan t :=
  destruct t as [|c r];
  [ rewrite ?sub_nil, ?placeholders_nil
  | destruct (Ascii.eqb_spec c delimiter) as [->|Hc%Ascii.eqb_neq];
    [ rewrite ?sub_delimiter, ?placeholders_delimiter;
      pose proof (match_after_delimiter_length r) as Hlen;
      destruct (match_after_delimiter r) as [mo rest] eqn:Hmo;
      simpl in Hlen;
      assert (String.length rest < String.length (String delimiter r)) as Hrest
        by (simpl; lia)
    | repeat (rewrite sub_char by exact Hc);
      repeat (rewrite placeholders_char by exact Hc);
      assert (String.length r < String.length (String c r)) as Hrest
        by (simpl; lia) ] ].

(** The scan sees a value only through its string. *)
Lemma sub_agree_str (m1 m2 : gmap string value) t :
  (forall n, n ∈ placeholders t -> str <$> m1 !! n = str <$> m2 !! n) ->
  sub m1 t = sub m2 t.
Proof.
  induction t as [t IH] using string_length_ind.
  scan t; intros Hagree.
  - reflexivity.
  - assert (sub m1 rest = sub m2 rest) as ->.
    { apply IH; [done|]. intros n Hn. apply Hagree.
      destruct mo; try done; by apply list_elem_of_further. }
    assert (convert m1 mo = convert m2 mo) as ->; [|done].
    destruct mo as [|name|name|]; simpl; try done;
      specialize (Hagree name (list_elem_of_here _ _));
      destruct (m1 !! name), (m2 !! name); simpl in Hagree; congruence.
  - by rewrite (IH r Hrest Hagree).
Qed.

(** X10. Doubling every [$] of a text gives a template that renders to
    the text, under any mapping. *)
Theorem render_escape text (mapping : gmap string value) :
  render (escape text) (Some mapping) = OK text.
Proof.
  unfold render, substitute. induction text as [|c t IH]; [apply sub_nil|].
  cbn [escape]. destruct (Ascii.eqb_spec c delimiter) as [->|Hc%Ascii.eqb_neq].
  - rewrite sub_delimiter. simpl. by rewrite IH.
  - by rewrite (sub_char _ _ _ Hc), IH.
Qed.

(** X11. Two mappings whose values print alike under every placeholder
    of the template render alike: an int, a bool or [None] does what the
    string of its [str] does. *)
Theorem render_by_printed_value template (m1 m2 : gmap string value) :
  forallb (fun name => bool_decide (str <$> m1 !! name = str <$> m2 !! name))
    (placeholders template) = true ->
  render template (Some m1) = render template (Some m2).
Proof.
  intros Hsame. apply sub_agree_str. intros n Hn.
  rewrite forallb_forall in Hsame.
  by apply list_elem_of_In, Hsame, bool_decide_eq_true in Hn.
Qed.

Lemma render_by_printed_value_witness :
  forallb (fun name => bool_decide
             (str <$> ({[ "n" := VInt 7; "b" := VBool true; "z" := VNone ]}
                         : gmap string value) !! name
              = str <$> ({[ "n" := VStr "7"; "b" := VStr "True" ]}
                           : gmap string value) !! name))
    (placeholders "retries=$n force=${b}") = true
  /\ render "retries=$n force=${b}"
       (Some {[ "n" := VInt 7; "b" := VBool true; "z" := VNone ]})
     = render "retries=$n force=${b}" (Some {[ "n" := VStr "7"; "b" := VStr "True" ]}).
Proof.
  assert (forallb (fun name => bool_decide
             (str <$> ({[ "n" := VInt 7; "b" := VBool true; "z" := VNone ]}
                         : gmap string value) !! name
              = str <$> ({[ "n" := VStr "7"; "b" := VStr "True" ]}
                           : gmap string value) !! name))
            (placeholders "retries=$n force=${b}") = true) as Hsame
    by (vm_compute; reflexivity).
  split; [exact Hsame|].
  exact (render_by_printed_value "retries=$n force=${b}" _ _ Hsame).
Defined.

End Escaping.

(** ** More on the run *)

Section Outcomes.
Import Py JenkinsScript Samples.

(** X12. The run fails with ["password required when user provided"]
    exactly when there is a user and no password; no answer of the
    transport and no script leads to that message otherwise. *)
Theorem password_required_iff (fetch_url : request -> response * info) a :
  result_of fetch_url a = inr (FailJson "password required when user provided")
  <-> is_Some (user a) /\ password a = None.
Proof.
  split.
  - intros Hres.
    destruct (run_cases a) as [(u & Hu & Hp) | [Hcred [(m & e & Ha & He) | [sc Hr]]]].
    + by rewrite Hu.
    + unfold result_of in Hres.
      by rewrite (run_render_raises _ a m e Hcred Ha He) in Hres.
    + unfold result_of in Hres. rewrite (run_fetched _ a sc Hcred Hr) in Hres.
      cbn [fst] in Hres. destruct (bool_decide _); [simpl in Hres; discriminate|].
      destruct (_ && _); simpl in Hres; discriminate.
  - intros [[u Hu] Hp]. unfold result_of.
    by rewrite (run_config_error _ a u Hu Hp).
Qed.

(** X13. The run exits with an output exactly when the credentials are
    in order, the script is rendered, the transport answers the request
    with status 200, and the body, which is the output, does not hold
    both marks of a stack trace. *)
Theorem exit_json_iff (fetch_url : request -> response * info) a output :
  result_of fetch_url a = inr (ExitJson output)
  <-> (user a = None \/ is_Some (password a))
      /\ exists script_contents,
           render (script a) (args a) = OK script_contents
           /\ status (fetch_url (request_for a script_contents)).2 = 200%Z
           /\ read (fetch_url (request_for a script_contents)).1 = output
           /\ contains "Exception:" output
              && contains "at java.lang.Thread" output = false.
Proof.
  split.
  - intros Hres.
    destruct (run_cases a) as [(u & Hu & Hp) | [Hcred [(m & e & Ha & He) | [sc Hr]]]].
    + unfold result_of in Hres. by rewrite (run_config_error _ a u Hu Hp) in Hres.
    + unfold result_of in Hres.
      by rewrite (run_render_raises _ a m e Hcred Ha He) in Hres.
    + split; [done|]. exists sc. split; [done|].
      unfold result_of in Hres. rewrite (run_fetched _ a sc Hcred Hr) in Hres.
      cbn [fst] in Hres. destruct (bool_decide _) eqn:Hst; [done|].
      apply bool_decide_eq_false in Hst.
      destruct (_ && _) eqn:Hmarks; [done|]. injection Hres as <-.
      split; [|done]. by destruct (decide (status (fetch_url (request_for a sc)).2 = 200%Z)).
  - intros (Hcred & sc & Hr & Hst & <- & Hmarks).
    unfold result_of. rewrite (run_fetched _ a sc Hcred Hr). cbn [fst].
    rewrite bool_decide_eq_false_2 by (by intros Hne; apply Hne).
    by rewrite Hmarks.
Qed.

(** X14. An exception escapes the run exactly when the credentials are
    in order, there is a mapping, and [substitute] raises that exception
    on the script; nothing else in [main] raises. *)
Theorem uncaught_iff (fetch_url : request -> response * info) a e :
  result_of fetch_url a = inr (Uncaught e)
  <-> (user a = None \/ is_Some (password a))
      /\ exists mapping,
           args a = Some mapping
           /\ Template.substitute (script a) mapping = Raise e.
Proof.
  split.
  - intros Hres.
    destruct (run_cases a) as [(u & Hu & Hp) | [Hcred [(m & e' & Ha & He) | [sc Hr]]]].
    + unfold result_of in Hres. by rewrite (run_config_error _ a u Hu Hp) in Hres.
    + unfold result_of in Hres.
      rewrite (run_render_raises _ a m e' Hcred Ha He) in Hres.
      injection Hres as ->. split; [done|]. by exists m.
    + unfold result_of in Hres. rewrite (run_fetched _ a sc Hcred Hr) in Hres.
      cbn [fst] in Hres. destruct (bool_decide _); [done|]. by destruct (_ && _).
  - intros (Hcred & m & Ha & He). unfold result_of.
    by rewrite (run_render_raises _ a m e Hcred Ha He).
Qed.

(** X15. What the run calls does not depend on what the transport
    answers: the same calls are made against any two transports, so no
    answer brings about a second request. There is at most one
    [substitute], at most one request, and the [substitute] comes first. *)
Theorem calls_fixed_before_answer (fetch_url fetch_url' : request -> response * info) a :
  calls_of fetch_url a = calls_of fetch_url' a
  /\ calls_of fetch_url a
     = ((fun tm => Substitute tm.1 tm.2) <$> substitutions (calls_of fetch_url a))
       ++ (FetchUrl <$> requests (calls_of fetch_url a))
  /\ length (substitutions (calls_of fetch_url a)) <= 1
  /\ length (requests (calls_of fetch_url a)) <= 1.
Proof.
  destruct (run_cases a) as [(u & Hu & Hp) | [Hcred [(m & e & Ha & He) | [sc Hr]]]].
  - unfold calls_of.
    rewrite (run_config_error fetch_url a u Hu Hp),
      (run_config_error fetch_url' a u Hu Hp). simpl. repeat split; lia.
  - unfold calls_of.
    rewrite (run_render_raises fetch_url a m e Hcred Ha He),
      (run_render_raises fetch_url' a m e Hcred Ha He). simpl. repeat split; lia.
  - unfold calls_of.
    rewrite (run_fetched fetch_url a sc Hcred Hr),
      (run_fetched fetch_url' a sc Hcred Hr). cbn [snd trace].
    destruct (args a); simpl; repeat split; lia.
Qed.

End Outcomes.
